(** * testing-relay: admission policy and request dispatcher

    A shallow embedding of [main.go]: the [RelayConfig] record, the
    [relay.RejectEvent] closure registered in [main], the generic helper
    [contains], and the HTTP handler built by [handleRoot].

    Conventions.
    - Go [int] values are [Z].  The code only compares them (no arithmetic),
      so no wrap-around is written out.
    - A Go [string] is a byte sequence: [string] of [ascii], and Go's
      [len(s)] is [String.length s].
    - A slice is a [list]; [len(nil) = 0], so [nil] and the empty slice are
      both [[]].
    - [fmt.Sprintf] verbs are the functions [fmt_d], [fmt_v_ints],
      [fmt_v_bool] below. *)

From Stdlib Require Import ZArith List Bool Ascii String Lia.
From Stdlib Require Import Numbers.DecimalString.
From Stdlib Require DecimalPos DecimalZ.
Import ListNotations.

Open Scope string_scope.
Open Scope Z_scope.

(** ** Formatting verbs of package [fmt] *)

Module Fmt.

(** [%d] on an [int]: decimal digits, a leading minus sign when negative. *)
Definition fmt_d (n : Z) : string :=
  NilZero.string_of_int (Z.to_int n).

(** [%v] on a [bool]. *)
Definition fmt_v_bool (b : bool) : string :=
  if b then "true" else "false".

(** [%v] on a [[]int]: the elements in [%d] form, separated by one space,
    between square brackets. *)
Definition fmt_v_ints (l : list Z) : string :=
  "[" ++ String.concat " " (map fmt_d l) ++ "]".

End Fmt.
Export Fmt.

(** ** Data model *)

(** [type RelayConfig struct].  [HTTPTimeout] is a [time.Duration], an
    integer count of nanoseconds. *)
Record RelayConfig : Type := mkRelayConfig {
  Port : Z;
  DBPath : string;
  HTTPTimeout : Z;
  Name : string;
  Description : string;
  PubKey : string;
  AllowedKinds : list Z;
  WhitelistPubkeys : list string;
  MaxContentLength : Z;
  MaxEventTags : Z;
  Debug : bool
}.

(** [nostr.Event], the fields of the struct the relay engine hands to the
    policy.  [Tags] is a slice of tags, each tag a slice of strings. *)
Record Event : Type := mkEvent {
  ID : string;
  EvPubKey : string;
  CreatedAt : Z;
  Kind : Z;
  Tags : list (list string);
  Content : string;
  Sig : string
}.

(** Go's builtin [len] on a string and on a slice, as an [int]. *)
Definition len_string (s : string) : Z := Z.of_nat (String.length s).
Definition len_slice {T : Type} (l : list T) : Z := Z.of_nat (List.length l).

(** ** [contains] *)

(** [func contains[T comparable](slice []T, item T) bool]: the loop returns
    [true] at the first element equal to [item], [false] when the slice is
    exhausted.  The [comparable] constraint is the equality test [eqb]. *)
Fixpoint contains {T : Type} (eqb : T -> T -> bool) (slice : list T) (item : T)
  : bool :=
  match slice with
  | [] => false
  | s :: rest => if eqb s item then true else contains eqb rest item
  end.

(** ** The admission policy: the closure appended to [relay.RejectEvent] *)

Definition content_reason (cfg : RelayConfig) : string :=
  "blocked: content length exceeds maximum of " ++ fmt_d (MaxContentLength cfg).

Definition tags_reason (cfg : RelayConfig) : string :=
  "blocked: number of tags exceeds maximum of " ++ fmt_d (MaxEventTags cfg).

Definition kind_reason (cfg : RelayConfig) (event : Event) : string :=
  "blocked: event kind " ++ fmt_d (Kind event)
  ++ " not allowed, allowed kinds: " ++ fmt_v_ints (AllowedKinds cfg).

Definition whitelist_reason : string := "blocked: pubkey not in whitelist".

(** [func(ctx context.Context, event *nostr.Event) (reject bool, msg string)].
    The context is not read. *)
Definition RejectEvent (cfg : RelayConfig) (event : Event) : bool * string :=
  if (MaxContentLength cfg >? 0)
     && (len_string (Content event) >? MaxContentLength cfg)
  then (true, content_reason cfg)
  else if (MaxEventTags cfg >? 0)
          && (len_slice (Tags event) >? MaxEventTags cfg)
  then (true, tags_reason cfg)
  else if (len_slice (AllowedKinds cfg) >? 0)
          && negb (contains Z.eqb (AllowedKinds cfg) (Kind event))
  then (true, kind_reason cfg event)
  else if (len_slice (WhitelistPubkeys cfg) >? 0)
          && negb (contains String.eqb (WhitelistPubkeys cfg) (EvPubKey event))
  then (true, whitelist_reason)
  else (false, "").

(** ** Package [strings]: [ToLower] *)

Fixpoint string_forallb (p : ascii -> bool) (s : string) : bool :=
  match s with
  | EmptyString => true
  | String c rest => p c && string_forallb p rest
  end.

Fixpoint string_existsb (p : ascii -> bool) (s : string) : bool :=
  match s with
  | EmptyString => false
  | String c rest => p c || string_existsb p rest
  end.

Fixpoint string_map (f : ascii -> ascii) (s : string) : string :=
  match s with
  | EmptyString => EmptyString
  | String c rest => String (f c) (string_map f rest)
  end.

(** [c < utf8.RuneSelf], that is, the byte is below 0x80. *)
Definition is_ascii_byte (c : ascii) : bool := (nat_of_ascii c <? 128)%nat.

(** ['A' <= c && c <= 'Z'] *)
Definition is_upper_byte (c : ascii) : bool :=
  ((65 <=? nat_of_ascii c) && (nat_of_ascii c <=? 90))%nat.

(** [c += 'a' - 'A'] on an upper-case byte, other bytes unchanged. *)
Definition lower_byte (c : ascii) : ascii :=
  if is_upper_byte c then ascii_of_nat (nat_of_ascii c + 32) else c.

Section Dispatcher.

(** [strings.Map(unicode.ToLower, s)], the path [strings.ToLower] takes on
    a string holding a byte of 0x80 or more.  The Unicode case tables belong
    to the Go library; the handler is modelled for whatever they map to. *)
Variable unicode_map_lower : string -> string.

(** [strings.ToLower]: an ASCII-only string without upper-case letters is
    returned as it is, an ASCII-only string has its upper-case bytes
    lowered, any other string goes through the Unicode mapping. *)
Definition ToLower (s : string) : string :=
  let isASCII := string_forallb is_ascii_byte s in
  let hasUpper := string_existsb is_upper_byte s in
  if isASCII then
    if negb hasUpper then s else string_map lower_byte s
  else unicode_map_lower s.

(** ** HTTP request and the effects of a handler *)

(** [http.Header] is [map[string][]string], keyed by canonical header name.
    Of [http.Request] the handler reads [Header] and [Host]. *)
Definition Header : Type := list (string * list string).

Record Request : Type := mkRequest {
  ReqHeader : Header;
  Host : string
}.

Fixpoint header_values (h : Header) (key : string) : list string :=
  match h with
  | [] => []
  | (k, vs) :: rest => if String.eqb k key then vs else header_values rest key
  end.

(** [Header.Get]: the first value stored under the key, [""] when there is
    none.  ["Upgrade"] and ["Accept"] are already in canonical form. *)
Definition Header_Get (h : Header) (key : string) : string :=
  match header_values h key with
  | [] => ""
  | v :: _ => v
  end.

(** The [map[string]interface{}] value handed to the JSON encoder. *)
#[warnings="-register-all"]
Inductive Value : Type :=
| VString (s : string)
| VInt (n : Z)
| VBool (b : bool)
| VInts (l : list Z)
| VMap (fields : list (string * Value)).

Fixpoint fields_lookup (fields : list (string * Value)) (key : string)
  : option Value :=
  match fields with
  | [] => None
  | (k, v) :: rest => if String.eqb k key then Some v else fields_lookup rest key
  end.

(** Index expression [m[key]] on a map value. *)
Definition Value_get (v : Value) (key : string) : option Value :=
  match v with
  | VMap fields => fields_lookup fields key
  | _ => None
  end.

(** What the handler does to the request and the response writer, in
    program order. *)
Inductive Action : Type :=
| RelayServeHTTP (r : Request)
| HeaderSet (key value : string)
| JSONEncode (v : Value)
| Fprintf (body : string).

(** ** [handleRoot] *)

(** The map literal of the [application/json] case. *)
Definition capability_document (cfg : RelayConfig) : Value :=
  VMap [
    ("name", VString (Name cfg));
    ("description", VString (Description cfg));
    ("pubkey", VString (PubKey cfg));
    ("config", VMap [
      ("allowed_kinds", VInts (AllowedKinds cfg));
      ("whitelist_enabled", VBool (len_slice (WhitelistPubkeys cfg) >? 0));
      ("max_content_length", VInt (MaxContentLength cfg));
      ("max_event_tags", VInt (MaxEventTags cfg));
      ("debug_enabled", VBool (Debug cfg))
    ])
  ].

Definition nl : string := String "010"%char EmptyString.
Definition tab : string := String "009"%char EmptyString.
Definition dquote : string := String "034"%char EmptyString.

Fixpoint tabs (n : nat) : string :=
  match n with
  | O => ""
  | S m => tab ++ tabs m
  end.

(** One line of the raw template: [n] tabs, the text, a newline. *)
Definition line (n : nat) (text : string) : string := tabs n ++ text ++ nl.

(** The format string of the [default] case with its verbs filled in. *)
Definition status_page (cfg : RelayConfig) (r : Request) : string :=
  nl
  ++ line 4 "<html>"
  ++ line 5 "<head>"
  ++ line 6 ("<title>" ++ Name cfg ++ "</title>")
  ++ line 6 "<style>"
  ++ line 7 "body { font-family: Arial, sans-serif; margin: 40px; line-height: 1.6; }"
  ++ line 7 "pre { background: #f4f4f4; padding: 15px; border-radius: 5px; }"
  ++ line 7 ".container { max-width: 800px; margin: 0 auto; }"
  ++ line 6 "</style>"
  ++ line 5 "</head>"
  ++ line 5 "<body>"
  ++ line 6 ("<div class=" ++ dquote ++ "container" ++ dquote ++ ">")
  ++ line 7 ("<h1>" ++ Name cfg ++ "</h1>")
  ++ line 7 ("<p>" ++ Description cfg ++ "</p>")
  ++ line 7 ""
  ++ line 7 "<h2>Relay Configuration</h2>"
  ++ line 7 "<pre>"
  ++ line 0 ("Allowed Event Kinds: " ++ fmt_v_ints (AllowedKinds cfg))
  ++ line 0 ("Whitelist Enabled: "
             ++ fmt_v_bool (len_slice (WhitelistPubkeys cfg) >? 0))
  ++ line 0 ("Max Content Length: " ++ fmt_d (MaxContentLength cfg) ++ " bytes")
  ++ line 0 ("Max Event Tags: " ++ fmt_d (MaxEventTags cfg))
  ++ line 0 ("Debug Enabled: " ++ fmt_v_bool (Debug cfg))
  ++ line 7 "</pre>"
  ++ line 0 ""
  ++ line 7 "<h2>Connection Information</h2>"
  ++ line 7 ("<p>Connect to this relay using: <code>ws://" ++ Host r ++ ":"
             ++ fmt_d (Port cfg) ++ "/</code></p>")
  ++ line 6 "</div>"
  ++ line 5 "</body>"
  ++ line 4 "</html>"
  ++ tabs 3.

(** [func handleRoot(relay *khatru.Relay, cfg *RelayConfig) http.HandlerFunc],
    the handler it returns, applied to one request. *)
Definition handleRoot (cfg : RelayConfig) (r : Request) : list Action :=
  if String.eqb (ToLower (Header_Get (ReqHeader r) "Upgrade")) "websocket"
  then [RelayServeHTTP r]
  else
    if String.eqb (Header_Get (ReqHeader r) "Accept") "application/json"
    then [HeaderSet "Content-Type" "application/json";
          JSONEncode (capability_document cfg)]
    else [HeaderSet "Content-Type" "text/html";
          Fprintf (status_page cfg r)].

End Dispatcher.

Arguments Header_Get h key : simpl never.

(** ** The rules of the policy, as the specification words them *)

Inductive Rule : Type :=
| ContentLengthRule
| TagCountRule
| AllowedKindsRule
| WhitelistRule.

(** Position of a rule in the evaluation order. *)
Definition rule_index (r : Rule) : nat :=
  match r with
  | ContentLengthRule => 1
  | TagCountRule => 2
  | AllowedKindsRule => 3
  | WhitelistRule => 4
  end.

(** The event fails rule [r] under the configuration. *)
Definition Violates (r : Rule) (cfg : RelayConfig) (event : Event) : Prop :=
  match r with
  | ContentLengthRule =>
      0 < MaxContentLength cfg /\ MaxContentLength cfg < len_string (Content event)
  | TagCountRule =>
      0 < MaxEventTags cfg /\ MaxEventTags cfg < len_slice (Tags event)
  | AllowedKindsRule =>
      AllowedKinds cfg <> [] /\ ~ In (Kind event) (AllowedKinds cfg)
  | WhitelistRule =>
      WhitelistPubkeys cfg <> [] /\ ~ In (EvPubKey event) (WhitelistPubkeys cfg)
  end.

(** The reason the code attaches to a rejection by rule [r]. *)
Definition reason_of (r : Rule) (cfg : RelayConfig) (event : Event) : string :=
  match r with
  | ContentLengthRule => content_reason cfg
  | TagCountRule => tags_reason cfg
  | AllowedKindsRule => kind_reason cfg event
  | WhitelistRule => whitelist_reason
  end.

(** Reading a reason back: the rule whose message text it starts with. *)
Definition rule_of_reason (msg : string) : option Rule :=
  if prefix "blocked: content length exceeds maximum of " msg
  then Some ContentLengthRule
  else if prefix "blocked: number of tags exceeds maximum of " msg
  then Some TagCountRule
  else if prefix "blocked: event kind " msg
  then Some AllowedKindsRule
  else if prefix "blocked: pubkey not in whitelist" msg
  then Some WhitelistRule
  else None.

(** Field updates on the two records. *)
Definition with_MaxContentLength (cfg : RelayConfig) (n : Z) : RelayConfig :=
  mkRelayConfig (Port cfg) (DBPath cfg) (HTTPTimeout cfg) (Name cfg)
    (Description cfg) (PubKey cfg) (AllowedKinds cfg) (WhitelistPubkeys cfg)
    n (MaxEventTags cfg) (Debug cfg).

Definition with_MaxEventTags (cfg : RelayConfig) (n : Z) : RelayConfig :=
  mkRelayConfig (Port cfg) (DBPath cfg) (HTTPTimeout cfg) (Name cfg)
    (Description cfg) (PubKey cfg) (AllowedKinds cfg) (WhitelistPubkeys cfg)
    (MaxContentLength cfg) n (Debug cfg).

Definition with_WhitelistPubkeys (cfg : RelayConfig) (l : list string)
  : RelayConfig :=
  mkRelayConfig (Port cfg) (DBPath cfg) (HTTPTimeout cfg) (Name cfg)
    (Description cfg) (PubKey cfg) (AllowedKinds cfg) l
    (MaxContentLength cfg) (MaxEventTags cfg) (Debug cfg).

Definition with_Content (event : Event) (c : string) : Event :=
  mkEvent (ID event) (EvPubKey event) (CreatedAt event) (Kind event)
    (Tags event) c (Sig event).

Definition with_Tags (event : Event) (t : list (list string)) : Event :=
  mkEvent (ID event) (EvPubKey event) (CreatedAt event) (Kind event)
    t (Content event) (Sig event).

(** [needle] occurs in [hay] as a contiguous run of bytes. *)
Fixpoint occurs_in (needle hay : string) : bool :=
  prefix needle hay
  || match hay with
     | EmptyString => false
     | String _ rest => occurs_in needle rest
     end.

(** Sample configurations and events of the specification's scenarios. *)
Definition default_config : RelayConfig :=
  mkRelayConfig 3334 "./khatru-sqlite.db" 30000000000 "Debug Khatru Relay"
    "A configurable Nostr relay for debugging and testing" "" [] []
    250000 2000 false.

Definition sample_event (pubkey : string) (kind : Z) (tags : list (list string))
  (content : string) : Event :=
  mkEvent "" pubkey 0 kind tags content "".

(** The configuration and the event of the ordering scenario: every one of
    the four rules is violated. *)
Definition strict_config : RelayConfig :=
  mkRelayConfig 3334 "" 0 "" "" "" [1] ["abc"] 2 1 false.

Definition offending_event : Event :=
  sample_event "xyz" 7 [["e"]; ["p"]] "long".

(** The three branches of the dispatcher's contract. *)
Inductive Route : Type :=
| StreamingHandoff
| CapabilityDocument
| StatusPage.

(** The branch a run of the handler took, read off its effects. *)
Definition route_of (acts : list Action) : option Route :=
  match acts with
  | [RelayServeHTTP _] => Some StreamingHandoff
  | [HeaderSet _ _; JSONEncode _] => Some CapabilityDocument
  | [HeaderSet _ _; Fprintf _] => Some StatusPage
  | _ => None
  end.

(** Equality of two byte strings up to the case of ASCII letters. *)
Definition ascii_fold_eq (a b : string) : bool :=
  String.eqb (string_map lower_byte a) (string_map lower_byte b).

(** The keys of a map value, in the order of the literal. *)
Definition Value_keys (v : Value) : list string :=
  match v with
  | VMap fields => map fst fields
  | _ => []
  end.

Definition request_with (upgrade accept : string) : Request :=
  mkRequest [("Upgrade", [upgrade]); ("Accept", [accept])] "localhost:3334".

Definition plain_request (accept : string) : Request :=
  mkRequest [("Accept", [accept])] "localhost:3334".





(** ** Logging and the lifecycle hooks of [main] *)

(** An operand handed to a formatting call. *)
Inductive Arg : Type :=
| ArgInt (n : Z)
| ArgString (s : string)
| ArgConfig (cfg : RelayConfig)
| ArgError (msg : string).

(** One call into package [log] ([log.Printf], or the [log.Fatalf] of
    [main]): the format string and the operands it is given.  The line the
    standard logger writes is this message behind the logger's own header
    (date and time), which is not modelled. *)
Record LogCall : Type := mkLogCall {
  log_format : string;
  log_args : list Arg
}.

(** [type Logger struct] *)
Record Logger : Type := mkLogger {
  debug : bool
}.

(** [func NewLogger(debug bool) *Logger] *)
Definition NewLogger (debug : bool) : Logger := mkLogger debug.

(** [func (l *Logger) Info(format string, v ...interface{})] *)
Definition Logger_Info (l : Logger) (format : string) (v : list Arg)
  : list LogCall :=
  [mkLogCall ("[INFO] " ++ format) v].

(** [func (l *Logger) Debug(format string, v ...interface{})] *)
Definition Logger_Debug (l : Logger) (format : string) (v : list Arg)
  : list LogCall :=
  if debug l then [mkLogCall ("[DEBUG] " ++ format) v] else [].

(** [func (l *Logger) Error(format string, v ...interface{})] *)
Definition Logger_Error (l : Logger) (format : string) (v : list Arg)
  : list LogCall :=
  [mkLogCall ("[ERROR] " ++ format) v].

(** The closures appended to [relay.OnConnect], [relay.OnDisconnect] and
    [relay.OnEventSaved]; [remoteAddr] is [ws.Request.RemoteAddr]. *)
Definition OnConnect (logger : Logger) (remoteAddr : string) : list LogCall :=
  Logger_Info logger "New connection from %s" [ArgString remoteAddr].

Definition OnDisconnect (logger : Logger) (remoteAddr : string)
  : list LogCall :=
  Logger_Info logger "Disconnected from %s" [ArgString remoteAddr].

Definition OnEventSaved (cfg : RelayConfig) (logger : Logger) (event : Event)
  : list LogCall :=
  if Debug cfg
  then Logger_Debug logger "Event saved - Kind: %d, Pubkey: %s"
         [ArgInt (Kind event); ArgString (EvPubKey event)]
  else [].

(** A call the relay engine makes into one of the three hooks. *)
Inductive HookCall : Type :=
| ConnectCall (remoteAddr : string)
| DisconnectCall (remoteAddr : string)
| EventSavedCall (event : Event).

Definition run_hook (cfg : RelayConfig) (logger : Logger) (h : HookCall)
  : list LogCall :=
  match h with
  | ConnectCall a => OnConnect logger a
  | DisconnectCall a => OnDisconnect logger a
  | EventSavedCall e => OnEventSaved cfg logger e
  end.

(** The calls [main] makes into package [log].  When [envconfig.Process]
    fails, [log.Fatalf] writes one message, without a level, and the process
    exits; [cfg] is not read then.  Otherwise: the debug dump of the
    configuration; on a failed [db.Init] the error record, after which
    [main] returns; otherwise the start notice with the listen address
    [":<port>"], the records of the hooks the engine calls while the server
    runs, and the error record when [ListenAndServe] returns. *)
Definition main_log (config_err : option string) (cfg : RelayConfig)
  (db_init_err : option string) (calls : list HookCall)
  (serve_err : option string) : list LogCall :=
  match config_err with
  | Some err => [mkLogCall "Failed to load configuration: %v" [ArgError err]]
  | None =>
      let logger := NewLogger (Debug cfg) in
      Logger_Debug logger "Configuration loaded: %+v" [ArgConfig cfg]
      ++ match db_init_err with
         | Some err =>
             Logger_Error logger "Failed to initialize database: %v"
               [ArgError err]
         | None =>
             let addr := ":" ++ fmt_d (Port cfg) in
             Logger_Info logger "Starting relay on %s" [ArgString addr]
             ++ flat_map (run_hook cfg logger) calls
             ++ match serve_err with
                | Some err =>
                    Logger_Error logger "Server failed: %v" [ArgError err]
                | None => []
                end
         end
  end.

(** Record updates used to state what a verdict does not read. *)
Definition with_Kind (event : Event) (k : Z) : Event :=
  mkEvent (ID event) (EvPubKey event) (CreatedAt event) k
    (Tags event) (Content event) (Sig event).

Definition with_EvPubKey (event : Event) (key : string) : Event :=
  mkEvent (ID event) key (CreatedAt event) (Kind event)
    (Tags event) (Content event) (Sig event).

Definition with_AllowedKinds (cfg : RelayConfig) (l : list Z) : RelayConfig :=
  mkRelayConfig (Port cfg) (DBPath cfg) (HTTPTimeout cfg) (Name cfg)
    (Description cfg) (PubKey cfg) l (WhitelistPubkeys cfg)
    (MaxContentLength cfg) (MaxEventTags cfg) (Debug cfg).

(** * Properties of the admission policy *)

Section PolicyFacts.

Lemma gtb_true (a b : Z) : (a >? b) = true <-> b < a.
Proof. rewrite Z.gtb_ltb. apply Z.ltb_lt. Qed.

Lemma gtb_false (a b : Z) : (a >? b) = false <-> a <= b.
Proof. rewrite Z.gtb_ltb. apply Z.ltb_ge. Qed.

Lemma len_slice_pos {T : Type} (l : list T) :
  (len_slice l >? 0) = true <-> l <> [].
Proof.
  unfold len_slice. rewrite gtb_true.
  destruct l as [|x l]; simpl; split; intro H; try lia; congruence.
Qed.

Lemma len_slice_zero {T : Type} (l : list T) :
  (len_slice l >? 0) = false <-> l = [].
Proof.
  unfold len_slice. rewrite gtb_false.
  destruct l as [|x l]; simpl; split; intro H; try lia; congruence.
Qed.

(** [contains] decides membership when [eqb] decides equality. *)
Lemma contains_In {T : Type} (eqb : T -> T -> bool)
  (eqb_eq : forall a b, eqb a b = true <-> a = b) (slice : list T) (item : T) :
  contains eqb slice item = true <-> In item slice.
Proof.
  induction slice as [|s rest IH]; simpl.
  - split; [discriminate | tauto].
  - destruct (eqb s item) eqn:E.
    + apply eqb_eq in E. tauto.
    + rewrite IH. split; [tauto | intros [H | H]; auto].
      apply eqb_eq in H. congruence.
Qed.

Lemma contains_kind (l : list Z) (k : Z) :
  contains Z.eqb l k = true <-> In k l.
Proof. apply contains_In, Z.eqb_eq. Qed.

Lemma contains_pubkey (l : list string) (k : string) :
  contains String.eqb l k = true <-> In k l.
Proof. apply contains_In, String.eqb_eq. Qed.

(** The guard of each [if] of the closure says that its rule is violated. *)
Lemma guard_content cfg event :
  (MaxContentLength cfg >? 0)
  && (len_string (Content event) >? MaxContentLength cfg) = true
  <-> Violates ContentLengthRule cfg event.
Proof. simpl. rewrite andb_true_iff, !gtb_true. tauto. Qed.

Lemma guard_tags cfg event :
  (MaxEventTags cfg >? 0) && (len_slice (Tags event) >? MaxEventTags cfg) = true
  <-> Violates TagCountRule cfg event.
Proof. simpl. rewrite andb_true_iff, !gtb_true. tauto. Qed.

Lemma guard_kinds cfg event :
  (len_slice (AllowedKinds cfg) >? 0)
  && negb (contains Z.eqb (AllowedKinds cfg) (Kind event)) = true
  <-> Violates AllowedKindsRule cfg event.
Proof.
  simpl. rewrite andb_true_iff, len_slice_pos, negb_true_iff.
  rewrite <- contains_kind, not_true_iff_false. tauto.
Qed.

Lemma guard_whitelist cfg event :
  (len_slice (WhitelistPubkeys cfg) >? 0)
  && negb (contains String.eqb (WhitelistPubkeys cfg) (EvPubKey event)) = true
  <-> Violates WhitelistRule cfg event.
Proof.
  simpl. rewrite andb_true_iff, len_slice_pos, negb_true_iff.
  rewrite <- contains_pubkey, not_true_iff_false. tauto.
Qed.

(** The verdict of the closure, case by case: either no rule is violated
    and the event is accepted with an empty reason, or the event is rejected
    with the reason of the earliest violated rule. *)
Lemma RejectEvent_cases cfg event :
  (RejectEvent cfg event = (false, "") /\ forall r, ~ Violates r cfg event)
  \/ exists r,
       Violates r cfg event
       /\ (forall r', (rule_index r' < rule_index r)%nat -> ~ Violates r' cfg event)
       /\ RejectEvent cfg event = (true, reason_of r cfg event).
Proof.
  unfold RejectEvent.
  destruct (_ && _) eqn:G1.
  { right. exists ContentLengthRule. apply guard_content in G1.
    repeat split; try apply G1. intros [] Hlt; simpl in Hlt; lia. }
  destruct (_ && _) eqn:G2 in |- *.
  { right. exists TagCountRule. apply guard_tags in G2.
    repeat split; try apply G2.
    intros [] Hlt; simpl in Hlt; try lia.
    rewrite <- guard_content. congruence. }
  destruct (_ && _) eqn:G3 in |- *.
  { right. exists AllowedKindsRule. apply guard_kinds in G3.
    repeat split; try apply G3.
    intros [] Hlt; simpl in Hlt; try lia.
    - rewrite <- guard_content. congruence.
    - rewrite <- guard_tags. congruence. }
  destruct (_ && _) eqn:G4 in |- *.
  { right. exists WhitelistRule. apply guard_whitelist in G4.
    repeat split; try apply G4.
    intros [] Hlt; simpl in Hlt; try lia.
    - rewrite <- guard_content. congruence.
    - rewrite <- guard_tags. congruence.
    - rewrite <- guard_kinds. congruence. }
  left. split; [reflexivity|].
  intros [].
  - rewrite <- guard_content. congruence.
  - rewrite <- guard_tags. congruence.
  - rewrite <- guard_kinds. congruence.
  - rewrite <- guard_whitelist. congruence.
Qed.

Lemma prefix_empty (s : string) : prefix "" s = true.
Proof. destruct s; reflexivity. Qed.

(** Each reason starts with the text of its own rule and of no other. *)
Lemma rule_of_reason_of r cfg event :
  rule_of_reason (reason_of r cfg event) = Some r.
Proof.
  destruct r; unfold rule_of_reason, reason_of, content_reason, tags_reason,
    kind_reason, whitelist_reason; simpl;
    rewrite ?prefix_empty; reflexivity.
Qed.

End PolicyFacts.

Lemma earliest_violation_verdict cfg event r :
  Violates r cfg event ->
  (forall r', (rule_index r' < rule_index r)%nat -> ~ Violates r' cfg event) ->
  RejectEvent cfg event = (true, reason_of r cfg event)
  /\ rule_of_reason (snd (RejectEvent cfg event)) = Some r.
Proof.
  intros Hv Hfirst.
  assert (E : RejectEvent cfg event = (true, reason_of r cfg event)).
  { destruct (RejectEvent_cases cfg event) as [[_ Hnone] | (r0 & Hv0 & Hfirst0 & E0)].
    - exfalso. exact (Hnone r Hv).
    - assert (rule_index r0 = rule_index r) as Hidx.
      { destruct (Nat.lt_trichotomy (rule_index r0) (rule_index r)) as [Hlt | [Heq | Hgt]].
        + exfalso. exact (Hfirst r0 Hlt Hv0).
        + exact Heq.
        + exfalso. exact (Hfirst0 r Hgt Hv). }
      assert (r0 = r) as -> by (destruct r0, r; simpl in Hidx; congruence).
      exact E0. }
  split; [exact E|]. rewrite E. apply rule_of_reason_of.
Qed.

(** C1. The rules are applied in the order content length, tag count,
    allowed kinds, whitelist, and the earliest rule an event violates fixes
    the verdict: if the event violates rule [r] and no rule before it, the
    closure rejects with exactly the reason of rule [r], a text that reads
    back as rule [r], whatever the later rules would say. *)
Theorem first_violation_determines_reason (cfg : RelayConfig) (event : Event)
  (r : Rule) :
  Violates r cfg event ->
  (forall r', (rule_index r' < rule_index r)%nat -> ~ Violates r' cfg event) ->
  RejectEvent cfg event = (true, reason_of r cfg event)
  /\ rule_of_reason (snd (RejectEvent cfg event)) = Some r.
Proof. apply earliest_violation_verdict. Qed.

(** An event that is too long, carries too many tags, is of a kind that is
    not allowed and comes from a key off the whitelist: rule 1 answers. *)
Lemma first_violation_determines_reason_witness :
  RejectEvent strict_config offending_event
  = (true, "blocked: content length exceeds maximum of 2")
  /\ rule_of_reason (snd (RejectEvent strict_config offending_event))
     = Some ContentLengthRule.
Proof.
  apply (first_violation_determines_reason strict_config offending_event
           ContentLengthRule).
  - simpl. unfold len_string. simpl. lia.
  - intros r' H. destruct r'; simpl in H; lia.
Defined.

(** C2. An event within every active limit is accepted: content no longer
    than a positive [MaxContentLength], no more tags than a positive
    [MaxEventTags], kind in a non-empty [AllowedKinds], pubkey in a
    non-empty [WhitelistPubkeys]. *)
Theorem within_limits_accepted (cfg : RelayConfig) (event : Event) :
  (0 < MaxContentLength cfg ->
   len_string (Content event) <= MaxContentLength cfg) ->
  (0 < MaxEventTags cfg -> len_slice (Tags event) <= MaxEventTags cfg) ->
  (AllowedKinds cfg <> [] -> In (Kind event) (AllowedKinds cfg)) ->
  (WhitelistPubkeys cfg <> [] -> In (EvPubKey event) (WhitelistPubkeys cfg)) ->
  RejectEvent cfg event = (false, "").
Proof.
  intros Hc Ht Hk Hw.
  destruct (RejectEvent_cases cfg event) as [[E _] | (r & Hv & _ & _)];
    [exact E|].
  exfalso. destruct r; simpl in Hv; destruct Hv as [H1 H2].
  - specialize (Hc H1). lia.
  - specialize (Ht H1). lia.
  - exact (H2 (Hk H1)).
  - exact (H2 (Hw H1)).
Qed.

Lemma within_limits_accepted_witness :
  RejectEvent
    (mkRelayConfig 3334 "" 0 "" "" "" [1; 30023] ["abc"] 100 2 false)
    (sample_event "abc" 1 [] "hi")
  = (false, "").
Proof.
  apply within_limits_accepted; simpl.
  - intros _. unfold len_string. simpl. lia.
  - intros _. unfold len_slice. simpl. lia.
  - intros _. left. reflexivity.
  - intros _. left. reflexivity.
Defined.

Section ReasonFacts.

(** A rejection whose reason reads back as rule [r] comes from an event
    that violates rule [r]. *)
Lemma rejection_rule_violated cfg event r :
  rule_of_reason (snd (RejectEvent cfg event)) = Some r -> Violates r cfg event.
Proof.
  destruct (RejectEvent_cases cfg event) as [[E _] | (r0 & Hv & _ & E)];
    rewrite E; simpl.
  - discriminate.
  - rewrite rule_of_reason_of. intros [= <-]. exact Hv.
Qed.



End ReasonFacts.





Section DisabledLimits.

(** A limit that is not positive switches its rule off. *)
Lemma content_rule_needs_positive_limit cfg event :
  MaxContentLength cfg <= 0 ->
  rule_of_reason (snd (RejectEvent cfg event)) <> Some ContentLengthRule.
Proof.
  intros Hle Hr. apply rejection_rule_violated in Hr. simpl in Hr. lia.
Qed.

Lemma tags_rule_needs_positive_limit cfg event :
  MaxEventTags cfg <= 0 ->
  rule_of_reason (snd (RejectEvent cfg event)) <> Some TagCountRule.
Proof.
  intros Hle Hr. apply rejection_rule_violated in Hr. simpl in Hr. lia.
Qed.

(** With the content rule off, the verdict does not read the content. *)
Lemma content_ignored cfg event content :
  MaxContentLength cfg <= 0 ->
  RejectEvent cfg (with_Content event content) = RejectEvent cfg event.
Proof.
  intros Hle. unfold RejectEvent.
  apply gtb_false in Hle. rewrite Hle. reflexivity.
Qed.

Lemma tags_ignored cfg event tags :
  MaxEventTags cfg <= 0 ->
  RejectEvent cfg (with_Tags event tags) = RejectEvent cfg event.
Proof.
  intros Hle. unfold RejectEvent.
  apply gtb_false in Hle. rewrite Hle. reflexivity.
Qed.

(** A limit that is not positive gives the verdicts of the limit 0. *)
Lemma content_limit_as_zero cfg event :
  MaxContentLength cfg <= 0 ->
  RejectEvent cfg event = RejectEvent (with_MaxContentLength cfg 0) event.
Proof.
  intros Hle. unfold RejectEvent.
  apply gtb_false in Hle. rewrite Hle. reflexivity.
Qed.

Lemma tags_limit_as_zero cfg event :
  MaxEventTags cfg <= 0 ->
  RejectEvent cfg event = RejectEvent (with_MaxEventTags cfg 0) event.
Proof.
  intros Hle. unfold RejectEvent.
  apply gtb_false in Hle. rewrite Hle. reflexivity.
Qed.

End DisabledLimits.

(** C4. [MaxContentLength = 0] switches the content-length check off: no
    event is rejected with the content-length reason, and the verdict is the
    same whatever content the event carries.  [MaxEventTags = 0] does the
    same to the tag-count check. *)
Theorem zero_limit_disables_check (cfg : RelayConfig) (event : Event) :
  (MaxContentLength cfg = 0 ->
   rule_of_reason (snd (RejectEvent cfg event)) <> Some ContentLengthRule
   /\ forall content,
        RejectEvent cfg (with_Content event content) = RejectEvent cfg event)
  /\ (MaxEventTags cfg = 0 ->
      rule_of_reason (snd (RejectEvent cfg event)) <> Some TagCountRule
      /\ forall tags,
           RejectEvent cfg (with_Tags event tags) = RejectEvent cfg event).
Proof.
  split; intros H0; split.
  - apply content_rule_needs_positive_limit. lia.
  - intros content. apply content_ignored. lia.
  - apply tags_rule_needs_positive_limit. lia.
  - intros tags. apply tags_ignored. lia.
Qed.

(** Both limits at 0: content of 40 bytes and three tags pass. *)
Lemma zero_limit_disables_check_witness :
  RejectEvent
    (with_MaxEventTags (with_MaxContentLength default_config 0) 0)
    (with_Tags
       (with_Content (sample_event "abc" 1 [] "")
          "0123456789012345678901234567890123456789")
       [["e"]; ["p"]; ["t"]])
  = (false, "").
Proof.
  destruct (zero_limit_disables_check
              (with_MaxEventTags (with_MaxContentLength default_config 0) 0)
              (with_Content (sample_event "abc" 1 [] "")
                 "0123456789012345678901234567890123456789")) as [_ Ht].
  destruct (Ht eq_refl) as [_ Htags]. rewrite Htags.
  destruct (zero_limit_disables_check
              (with_MaxEventTags (with_MaxContentLength default_config 0) 0)
              (sample_event "abc" 1 [] "")) as [Hc _].
  destruct (Hc eq_refl) as [_ Hcontent]. rewrite Hcontent.
  reflexivity.
Defined.

(** C5. The policy is a total function and its verdict is well formed:
    every configuration and event, an event without tags, with empty
    content or of kind 0 included, gets a verdict [(reject, reason)], and
    [reject = false] comes with the empty reason. *)
Theorem verdict_total_and_well_formed (cfg : RelayConfig) (event : Event) :
  exists (reject : bool) (reason : string),
    RejectEvent cfg event = (reject, reason)
    /\ (reject = false -> reason = "").
Proof.
  destruct (RejectEvent_cases cfg event) as [[E _] | (r & _ & _ & E)];
    rewrite E; eexists; eexists; split; try reflexivity.
  discriminate.
Qed.

(** The empty event of kind 0 under the default configuration. *)
Lemma verdict_total_and_well_formed_witness :
  RejectEvent default_config (sample_event "" 0 [] "") = (false, "").
Proof.
  destruct (verdict_total_and_well_formed default_config
              (sample_event "" 0 [] "")) as (reject & reason & E & Hwf).
  rewrite E.
  assert (reject = false) as Hr.
  { change (fst (reject, reason) = false). rewrite <- E. reflexivity. }
  rewrite (Hwf Hr), Hr. reflexivity.
Defined.

(** C10. A negative [MaxContentLength] never rejects on content length: the
    guard asks for a limit above zero, so the verdict is that of the limit
    0 and never carries the content-length reason.  A negative
    [MaxEventTags] likewise never rejects on tag count.  The policy itself
    does not insist on a non-negative limit. *)
Theorem negative_limit_as_unlimited (cfg : RelayConfig) (event : Event) :
  (MaxContentLength cfg < 0 ->
   RejectEvent cfg event = RejectEvent (with_MaxContentLength cfg 0) event
   /\ rule_of_reason (snd (RejectEvent cfg event)) <> Some ContentLengthRule)
  /\ (MaxEventTags cfg < 0 ->
      RejectEvent cfg event = RejectEvent (with_MaxEventTags cfg 0) event
      /\ rule_of_reason (snd (RejectEvent cfg event)) <> Some TagCountRule).
Proof.
  split; intros Hneg; split.
  - apply content_limit_as_zero. lia.
  - apply content_rule_needs_positive_limit. lia.
  - apply tags_limit_as_zero. lia.
  - apply tags_rule_needs_positive_limit. lia.
Qed.

(** Limits of -5 and -1: the verdict is the one of limits 0 and 0. *)
Lemma negative_limit_as_unlimited_witness :
  RejectEvent
    (with_MaxEventTags (with_MaxContentLength default_config (-5)) (-1))
    (sample_event "abc" 1 [["e"]] "hello")
  = RejectEvent
      (with_MaxEventTags (with_MaxContentLength default_config 0) 0)
      (sample_event "abc" 1 [["e"]] "hello").
Proof.
  destruct (negative_limit_as_unlimited
              (with_MaxEventTags (with_MaxContentLength default_config (-5)) (-1))
              (sample_event "abc" 1 [["e"]] "hello")) as [Hc Ht].
  destruct Hc as [Ec _]; [simpl; lia|].
  rewrite Ec.
  destruct (negative_limit_as_unlimited
              (with_MaxContentLength
                 (with_MaxEventTags
                    (with_MaxContentLength default_config (-5)) (-1)) 0)
              (sample_event "abc" 1 [["e"]] "hello")) as [_ Ht'].
  destruct Ht' as [Et _]; [simpl; lia|].
  rewrite Et. reflexivity.
Defined.

(** * Properties of the request dispatcher *)

Section DispatcherFacts.

Variable unicode_map_lower : string -> string.

Lemma lower_byte_ascii (c : ascii) :
  is_ascii_byte (lower_byte c) = true -> is_ascii_byte c = true.
Proof.
  destruct c as [[] [] [] [] [] [] [] []]; vm_compute; intros H;
    first [reflexivity | exact H].
Qed.

Lemma string_map_lower_ascii (s : string) :
  string_forallb is_ascii_byte (string_map lower_byte s) = true ->
  string_forallb is_ascii_byte s = true.
Proof.
  induction s as [|c s IH]; simpl; [reflexivity|].
  rewrite !andb_true_iff. intros [Hc Hs].
  split; [apply lower_byte_ascii, Hc | apply IH, Hs].
Qed.

Lemma string_map_lower_no_upper (s : string) :
  string_existsb is_upper_byte s = false -> string_map lower_byte s = s.
Proof.
  induction s as [|c s IH]; simpl; [reflexivity|].
  rewrite orb_false_iff. intros [Hc Hs].
  rewrite (IH Hs). unfold lower_byte. rewrite Hc. reflexivity.
Qed.

(** On an ASCII-only string [ToLower] lowers byte by byte. *)
Lemma ToLower_ascii (s : string) :
  string_forallb is_ascii_byte s = true ->
  ToLower unicode_map_lower s = string_map lower_byte s.
Proof.
  intros Hs. unfold ToLower. rewrite Hs.
  destruct (string_existsb is_upper_byte s) eqn:U; simpl; [reflexivity|].
  symmetry. apply string_map_lower_no_upper, U.
Qed.

(** A value that is [websocket] up to letter case lowers to [websocket]. *)
Lemma ToLower_fold_websocket (s : string) :
  ascii_fold_eq s "websocket" = true ->
  ToLower unicode_map_lower s = "websocket".
Proof.
  unfold ascii_fold_eq. rewrite String.eqb_eq.
  change (string_map lower_byte "websocket") with "websocket".
  intros E. rewrite ToLower_ascii; [exact E|].
  apply string_map_lower_ascii. rewrite E. reflexivity.
Qed.

(** Past the upgrade test the handler switches on the Accept header. *)
Lemma handleRoot_no_upgrade cfg r :
  ToLower unicode_map_lower (Header_Get (ReqHeader r) "Upgrade") <> "websocket" ->
  handleRoot unicode_map_lower cfg r
  = if String.eqb (Header_Get (ReqHeader r) "Accept") "application/json"
    then [HeaderSet "Content-Type" "application/json";
          JSONEncode (capability_document cfg)]
    else [HeaderSet "Content-Type" "text/html"; Fprintf (status_page cfg r)].
Proof.
  intros Hne. unfold handleRoot.
  destruct (String.eqb _ "websocket") eqn:E; [|reflexivity].
  apply String.eqb_eq in E. contradiction.
Qed.

End DispatcherFacts.

(** C6. A request whose Upgrade header is [websocket] in any letter case is
    handed to the relay engine, and the handler does nothing else: its only
    effect is the call of [relay.ServeHTTP], whatever the Accept header
    asks for. *)
Theorem websocket_upgrade_handed_off (unicode_map_lower : string -> string)
  (cfg : RelayConfig) (r : Request) :
  ascii_fold_eq (Header_Get (ReqHeader r) "Upgrade") "websocket" = true ->
  handleRoot unicode_map_lower cfg r = [RelayServeHTTP r]
  /\ route_of (handleRoot unicode_map_lower cfg r) = Some StreamingHandoff.
Proof.
  intros H. apply (ToLower_fold_websocket unicode_map_lower) in H.
  assert (E : handleRoot unicode_map_lower cfg r = [RelayServeHTTP r]).
  { unfold handleRoot. rewrite H. reflexivity. }
  rewrite E. split; reflexivity.
Qed.

(** Upgrade [WebSocket] together with Accept [application/json]. *)
Lemma websocket_upgrade_handed_off_witness :
  handleRoot (fun s => s) default_config
    (request_with "WebSocket" "application/json")
  = [RelayServeHTTP (request_with "WebSocket" "application/json")].
Proof.
  apply (websocket_upgrade_handed_off (fun s => s) default_config
           (request_with "WebSocket" "application/json")).
  reflexivity.
Defined.

(** An Upgrade header that is present but is not [websocket]: the request
    is answered with the capability document, not handed to the engine. *)
Lemma malformed_upgrade_not_handed_off :
  Header_Get (ReqHeader (request_with "websock" "application/json")) "Upgrade"
  = "websock"
  /\ route_of (handleRoot (fun s => s) default_config
                 (request_with "websock" "application/json"))
     = Some CapabilityDocument.
Proof. split; reflexivity. Qed.

(** C7, as the code has it.  A request whose Upgrade header is present but
    does not lower to exactly [websocket] is not taken as an upgrade: the
    handler falls through to the Accept header and answers with the
    capability document when Accept is [application/json], with the status
    page otherwise. *)
Theorem malformed_upgrade_routed_by_accept
  (unicode_map_lower : string -> string) (cfg : RelayConfig) (r : Request) :
  Header_Get (ReqHeader r) "Upgrade" <> "" ->
  ToLower unicode_map_lower (Header_Get (ReqHeader r) "Upgrade") <> "websocket" ->
  route_of (handleRoot unicode_map_lower cfg r)
  = Some (if String.eqb (Header_Get (ReqHeader r) "Accept") "application/json"
          then CapabilityDocument else StatusPage).
Proof.
  intros _ Hne. rewrite (handleRoot_no_upgrade _ _ _ Hne).
  destruct (String.eqb _ _); reflexivity.
Qed.

Lemma malformed_upgrade_routed_by_accept_witness :
  route_of (handleRoot (fun s => s) default_config
              (request_with "websocket, h2c" "text/html"))
  = Some StatusPage.
Proof.
  apply (malformed_upgrade_routed_by_accept (fun s => s) default_config
           (request_with "websocket, h2c" "text/html")).
  - discriminate.
  - discriminate.
Defined.

(** C9. A request that is not an upgrade is routed by its Accept header:
    the value [application/json] gets the capability document, every other
    value, the absent header included, gets the status page. *)
Theorem non_upgrade_routed_by_accept (unicode_map_lower : string -> string)
  (cfg : RelayConfig) (r : Request) :
  ToLower unicode_map_lower (Header_Get (ReqHeader r) "Upgrade") <> "websocket" ->
  (Header_Get (ReqHeader r) "Accept" = "application/json" ->
   handleRoot unicode_map_lower cfg r
   = [HeaderSet "Content-Type" "application/json";
      JSONEncode (capability_document cfg)]
   /\ route_of (handleRoot unicode_map_lower cfg r) = Some CapabilityDocument)
  /\ (Header_Get (ReqHeader r) "Accept" <> "application/json" ->
      handleRoot unicode_map_lower cfg r
      = [HeaderSet "Content-Type" "text/html"; Fprintf (status_page cfg r)]
      /\ route_of (handleRoot unicode_map_lower cfg r) = Some StatusPage).
Proof.
  intros Hne. rewrite (handleRoot_no_upgrade _ _ _ Hne).
  split; intros HA.
  - rewrite HA. split; reflexivity.
  - destruct (String.eqb _ _) eqn:E.
    + apply String.eqb_eq in E. contradiction.
    + split; reflexivity.
Qed.

(** No Upgrade header and no Accept header: the status page. *)
Lemma non_upgrade_routed_by_accept_witness :
  route_of (handleRoot (fun s => s) default_config (mkRequest [] "localhost"))
  = Some StatusPage.
Proof.
  destruct (non_upgrade_routed_by_accept (fun s => s) default_config
              (mkRequest [] "localhost")) as [_ H].
  - discriminate.
  - destruct H as [_ H]; [discriminate | exact H].
Defined.

Section DocumentFacts.

(** The [whitelist_enabled] flag is the test [len(cfg.WhitelistPubkeys) > 0]:
    it depends on the whitelist through its emptiness alone. *)
Lemma document_ignores_members cfg members :
  (members <> [] <-> WhitelistPubkeys cfg <> []) ->
  capability_document (with_WhitelistPubkeys cfg members)
  = capability_document cfg.
Proof.
  intros H. unfold capability_document. simpl.
  assert ((len_slice members >? 0) = (len_slice (WhitelistPubkeys cfg) >? 0)) as ->;
    [|reflexivity].
  destruct (len_slice (WhitelistPubkeys cfg) >? 0) eqn:E.
  - apply len_slice_pos. apply H. apply len_slice_pos. exact E.
  - apply len_slice_zero. apply len_slice_zero in E.
    destruct members as [|m ms]; [reflexivity|].
    exfalso. destruct H as [H _]. apply H; [discriminate | exact E].
Qed.

(** Two configurations with the same [config] object in their documents
    and the same whitelist give every event the same verdict. *)
Lemma policy_read_from_document cfg cfg' event :
  Value_get (capability_document cfg') "config"
  = Value_get (capability_document cfg) "config" ->
  WhitelistPubkeys cfg' = WhitelistPubkeys cfg ->
  RejectEvent cfg' event = RejectEvent cfg event.
Proof.
  simpl. intros [= Hk _ Hc Ht _] Hw.
  unfold RejectEvent, content_reason, tags_reason, kind_reason.
  rewrite Hk, Hc, Ht, Hw. reflexivity.
Qed.

End DocumentFacts.

(** C8. The capability document the handler encodes mirrors the
    configuration the policy runs on.  Its [config] object has the five
    fields [allowed_kinds], [whitelist_enabled], [max_content_length],
    [max_event_tags], [debug_enabled] and no other; [allowed_kinds] is
    [cfg.AllowedKinds], [whitelist_enabled] is true exactly when
    [cfg.WhitelistPubkeys] is non-empty, and the other three are the
    configuration's values.  The members of the whitelist have no part in
    the response: replacing them by any other non-empty (or empty, when the
    list is empty) list leaves it unchanged.  Together with the whitelist,
    the [config] object fixes the policy's verdict on every event. *)
Theorem capability_document_mirrors_config
  (unicode_map_lower : string -> string) (cfg : RelayConfig) (r : Request) :
  route_of (handleRoot unicode_map_lower cfg r) = Some CapabilityDocument ->
  exists doc config : Value,
    handleRoot unicode_map_lower cfg r
    = [HeaderSet "Content-Type" "application/json"; JSONEncode doc]
    /\ Value_keys doc = ["name"; "description"; "pubkey"; "config"]
    /\ Value_get doc "config" = Some config
    /\ Value_keys config
       = ["allowed_kinds"; "whitelist_enabled"; "max_content_length";
          "max_event_tags"; "debug_enabled"]
    /\ Value_get config "allowed_kinds" = Some (VInts (AllowedKinds cfg))
    /\ (exists enabled : bool,
          Value_get config "whitelist_enabled" = Some (VBool enabled)
          /\ (enabled = true <-> WhitelistPubkeys cfg <> []))
    /\ Value_get config "max_content_length" = Some (VInt (MaxContentLength cfg))
    /\ Value_get config "max_event_tags" = Some (VInt (MaxEventTags cfg))
    /\ Value_get config "debug_enabled" = Some (VBool (Debug cfg))
    /\ (forall members,
          (members <> [] <-> WhitelistPubkeys cfg <> []) ->
          handleRoot unicode_map_lower (with_WhitelistPubkeys cfg members) r
          = handleRoot unicode_map_lower cfg r)
    /\ (forall cfg' event,
          Value_get (capability_document cfg') "config" = Some config ->
          WhitelistPubkeys cfg' = WhitelistPubkeys cfg ->
          RejectEvent cfg' event = RejectEvent cfg event).
Proof.
  unfold handleRoot.
  destruct (String.eqb (ToLower _ _) _); [discriminate|].
  destruct (String.eqb (Header_Get _ "Accept") _); [|discriminate].
  intros _.
  exists (capability_document cfg).
  eexists. split; [reflexivity|]. split; [reflexivity|].
  split; [reflexivity|]. split; [reflexivity|]. split; [reflexivity|].
  split.
  { eexists. split; [reflexivity|]. apply len_slice_pos. }
  split; [reflexivity|]. split; [reflexivity|]. split; [reflexivity|].
  split.
  - intros members H. rewrite (document_ignores_members cfg members H).
    reflexivity.
  - intros cfg' event H Hw. apply policy_read_from_document; assumption.
Qed.

(** A whitelist of two keys, kinds 1 and 30023: the document says
    [whitelist_enabled: true] and lists the kinds. *)
Lemma capability_document_mirrors_config_witness :
  exists doc config : Value,
    handleRoot (fun s => s)
      (mkRelayConfig 3334 "" 0 "relay" "" "" [1; 30023] ["abc"; "def"]
         100 20 false)
      (plain_request "application/json")
    = [HeaderSet "Content-Type" "application/json"; JSONEncode doc]
    /\ Value_get doc "config" = Some config
    /\ Value_get config "allowed_kinds" = Some (VInts [1; 30023])
    /\ Value_get config "max_content_length" = Some (VInt 100).
Proof.
  destruct (capability_document_mirrors_config (fun s => s)
              (mkRelayConfig 3334 "" 0 "relay" "" "" [1; 30023] ["abc"; "def"]
                 100 20 false)
              (plain_request "application/json") eq_refl)
    as (doc & config & E & _ & Hc & _ & Hk & _ & Hm & _).
  exists doc, config. repeat split; assumption.
Defined.

(** * The scenarios of the specification *)

Example fmt_samples :
  fmt_d 0 = "0" /\ fmt_d 250000 = "250000" /\ fmt_d (-7) = "-7"
  /\ fmt_v_ints [1; 30023] = "[1 30023]" /\ fmt_v_ints [] = "[]".
Proof. repeat split; reflexivity. Qed.

Example scenario_allowed_kinds :
  RejectEvent
    (mkRelayConfig 3334 "" 0 "" "" "" [1; 30023] [] 100 0 false)
    (sample_event "abc" 1 [] "hi") = (false, "")
  /\ RejectEvent
       (mkRelayConfig 3334 "" 0 "" "" "" [1; 30023] [] 100 0 false)
       (sample_event "abc" 9999 [] "hi")
     = (true, "blocked: event kind 9999 not allowed, allowed kinds: [1 30023]").
Proof. split; reflexivity. Qed.

Example scenario_whitelist :
  RejectEvent (with_WhitelistPubkeys default_config ["abc"])
    (sample_event "xyz" 1 [] "") = (true, "blocked: pubkey not in whitelist")
  /\ RejectEvent (with_WhitelistPubkeys default_config ["abc"])
       (sample_event "abc" 1 [] "") = (false, "").
Proof. split; reflexivity. Qed.

Example scenario_tags :
  RejectEvent strict_config (sample_event "abc" 1 [["e"]; ["p"]] "hi")
  = (true, "blocked: number of tags exceeds maximum of 1").
Proof. reflexivity. Qed.

(** * Further properties of [contains] and of the policy *)

(** [contains] decides membership: with an equality test that is true
    exactly on equal values, it returns [true] exactly when the item is an
    element of the slice. *)
Theorem contains_decides_membership {T : Type} (eqb : T -> T -> bool)
  (slice : list T) (item : T) :
  (forall a b, eqb a b = true <-> a = b) ->
  (contains eqb slice item = true <-> In item slice).
Proof. intros Heq. apply contains_In, Heq. Qed.

Lemma contains_decides_membership_witness :
  contains Z.eqb [1; 30023] 30023 = true <-> In 30023 [1; 30023].
Proof.
  apply (contains_decides_membership Z.eqb [1; 30023] 30023).
  intros a b. apply Z.eqb_eq.
Defined.

Lemma contains_app_orb {T : Type} (eqb : T -> T -> bool) (l1 l2 : list T)
  (item : T) :
  contains eqb (l1 ++ l2) item
  = contains eqb l1 item || contains eqb l2 item.
Proof.
  induction l1 as [|s rest IH]; simpl; [reflexivity|].
  destruct (eqb s item); [reflexivity | exact IH].
Qed.

(** The empty slice contains nothing; searching the concatenation of two
    slices is searching the first and, failing that, the second; and the
    result is the same when the two slices are concatenated the other way
    round. *)
Theorem contains_app {T : Type} (eqb : T -> T -> bool) (l1 l2 : list T)
  (item : T) :
  contains eqb [] item = false
  /\ contains eqb (l1 ++ l2) item
     = contains eqb l1 item || contains eqb l2 item
  /\ contains eqb (l1 ++ l2) item = contains eqb (l2 ++ l1) item.
Proof.
  split; [reflexivity|]. split.
  - apply contains_app_orb.
  - rewrite !contains_app_orb. apply orb_comm.
Qed.

Section VerdictFacts.

Lemma not_violates_content cfg event :
  ~ Violates ContentLengthRule cfg event ->
  0 < MaxContentLength cfg -> len_string (Content event) <= MaxContentLength cfg.
Proof. simpl. lia. Qed.

Lemma not_violates_tags cfg event :
  ~ Violates TagCountRule cfg event ->
  0 < MaxEventTags cfg -> len_slice (Tags event) <= MaxEventTags cfg.
Proof. simpl. lia. Qed.

Lemma not_violates_kinds cfg event :
  ~ Violates AllowedKindsRule cfg event ->
  AllowedKinds cfg <> [] -> In (Kind event) (AllowedKinds cfg).
Proof.
  simpl. intros Hn Hne.
  destruct (contains Z.eqb (AllowedKinds cfg) (Kind event)) eqn:E.
  - apply contains_kind, E.
  - exfalso. apply Hn. split; [exact Hne|].
    rewrite <- contains_kind. congruence.
Qed.

Lemma not_violates_whitelist cfg event :
  ~ Violates WhitelistRule cfg event ->
  WhitelistPubkeys cfg <> [] -> In (EvPubKey event) (WhitelistPubkeys cfg).
Proof.
  simpl. intros Hn Hne.
  destruct (contains String.eqb (WhitelistPubkeys cfg) (EvPubKey event)) eqn:E.
  - apply contains_pubkey, E.
  - exfalso. apply Hn. split; [exact Hne|].
    rewrite <- contains_pubkey. congruence.
Qed.

(** The accepting verdict, and the flag alone, say that no rule is
    violated. *)
Lemma accept_flag_no_violation cfg event :
  fst (RejectEvent cfg event) = false <-> forall r, ~ Violates r cfg event.
Proof.
  destruct (RejectEvent_cases cfg event) as [[E Hnone] | (r & Hv & _ & E)];
    rewrite E; simpl; split; auto.
  - discriminate.
  - intros Hnone. exfalso. exact (Hnone r Hv).
Qed.

Lemma prefix_blocked_reason r cfg event :
  prefix "blocked: " (reason_of r cfg event) = true.
Proof.
  destruct r; unfold reason_of, content_reason, tags_reason, kind_reason,
    whitelist_reason; simpl; rewrite ?prefix_empty; reflexivity.
Qed.

End VerdictFacts.

(** An event is accepted exactly when it is within every active limit: the
    reject flag is [false] if and only if the content is no longer than a
    positive [MaxContentLength], the tags are no more than a positive
    [MaxEventTags], the kind is in a non-empty [AllowedKinds] and the pubkey
    is in a non-empty [WhitelistPubkeys]. *)
Theorem accepted_iff_within_limits (cfg : RelayConfig) (event : Event) :
  fst (RejectEvent cfg event) = false
  <-> (0 < MaxContentLength cfg ->
       len_string (Content event) <= MaxContentLength cfg)
      /\ (0 < MaxEventTags cfg -> len_slice (Tags event) <= MaxEventTags cfg)
      /\ (AllowedKinds cfg <> [] -> In (Kind event) (AllowedKinds cfg))
      /\ (WhitelistPubkeys cfg <> [] ->
          In (EvPubKey event) (WhitelistPubkeys cfg)).
Proof.
  rewrite accept_flag_no_violation. split.
  - intros Hnone. repeat split.
    + apply not_violates_content, Hnone.
    + apply not_violates_tags, Hnone.
    + apply not_violates_kinds, Hnone.
    + apply not_violates_whitelist, Hnone.
  - intros (Hc & Ht & Hk & Hw) r Hv.
    destruct r; simpl in Hv; destruct Hv as [H1 H2].
    + specialize (Hc H1). lia.
    + specialize (Ht H1). lia.
    + exact (H2 (Hk H1)).
    + exact (H2 (Hw H1)).
Qed.

(** A verdict rejects exactly when its reason starts with [blocked: ]; so
    every rejection carries a non-empty reason with that prefix and no
    acceptance does. *)
Theorem rejection_reason_has_blocked_prefix (cfg : RelayConfig)
  (event : Event) :
  fst (RejectEvent cfg event) = true
  <-> prefix "blocked: " (snd (RejectEvent cfg event)) = true.
Proof.
  destruct (RejectEvent_cases cfg event) as [[E _] | (r & _ & _ & E)];
    rewrite E; simpl fst; simpl snd.
  - split; discriminate.
  - rewrite prefix_blocked_reason. tauto.
Qed.

(** The verdict reads four things of an event: the length of its content,
    the number of its tags, its kind and its pubkey.  Two events that agree
    on these get the same verdict, whatever their id, signature, timestamp,
    content bytes and tag values are. *)
Theorem verdict_reads_four_measures (cfg : RelayConfig) (e1 e2 : Event) :
  len_string (Content e1) = len_string (Content e2) ->
  len_slice (Tags e1) = len_slice (Tags e2) ->
  Kind e1 = Kind e2 ->
  EvPubKey e1 = EvPubKey e2 ->
  RejectEvent cfg e1 = RejectEvent cfg e2.
Proof.
  intros Hc Ht Hk Hp. unfold RejectEvent, kind_reason.
  rewrite Hc, Ht, Hk, Hp. reflexivity.
Qed.

Lemma verdict_reads_four_measures_witness :
  RejectEvent strict_config
    (mkEvent "id1" "abc" 17 1 [["e"; "x"]] "hi" "sig1")
  = RejectEvent strict_config
      (mkEvent "id2" "abc" 99 1 [["p"]] "yo" "sig2").
Proof.
  apply (verdict_reads_four_measures strict_config
           (mkEvent "id1" "abc" 17 1 [["e"; "x"]] "hi" "sig1")
           (mkEvent "id2" "abc" 99 1 [["p"]] "yo" "sig2"));
    reflexivity.
Defined.

(** An empty list is no restriction: with an empty [AllowedKinds] the
    verdict is the same for every kind and never carries the kind reason,
    and with an empty [WhitelistPubkeys] it is the same for every pubkey
    and never carries the whitelist reason. *)
Theorem empty_lists_disable_checks (cfg : RelayConfig) (event : Event) :
  (AllowedKinds cfg = [] ->
   rule_of_reason (snd (RejectEvent cfg event)) <> Some AllowedKindsRule
   /\ forall k, RejectEvent cfg (with_Kind event k) = RejectEvent cfg event)
  /\ (WhitelistPubkeys cfg = [] ->
      rule_of_reason (snd (RejectEvent cfg event)) <> Some WhitelistRule
      /\ forall key,
           RejectEvent cfg (with_EvPubKey event key) = RejectEvent cfg event).
Proof.
  split; intros Hnil; split.
  - intros Hr. apply rejection_rule_violated in Hr. simpl in Hr. tauto.
  - intros k. unfold RejectEvent. rewrite Hnil. reflexivity.
  - intros Hr. apply rejection_rule_violated in Hr. simpl in Hr. tauto.
  - intros key. unfold RejectEvent. rewrite Hnil. reflexivity.
Qed.

Lemma empty_lists_disable_checks_witness :
  RejectEvent default_config (with_Kind (sample_event "abc" 1 [] "hi") 9999)
  = RejectEvent default_config (sample_event "abc" 1 [] "hi").
Proof.
  destruct (empty_lists_disable_checks default_config
              (sample_event "abc" 1 [] "hi")) as [Hk _].
  destruct (Hk eq_refl) as [_ H]. apply H.
Defined.

Section ListChanges.

(** The verdict before the whitelist test does not read the whitelist. *)
Lemma whitelist_only_in_last_rule cfg members event r :
  r <> WhitelistRule ->
  (Violates r (with_WhitelistPubkeys cfg members) event <-> Violates r cfg event).
Proof. destruct r; simpl; tauto. Qed.

Lemma fmt_d_inj (n m : Z) : fmt_d n = fmt_d m -> n = m.
Proof.
  unfold fmt_d. intros H.
  assert (forall z, Z.to_int z <> Decimal.Pos Decimal.Nil
                    /\ Z.to_int z <> Decimal.Neg Decimal.Nil) as Hnn.
  { intros [|p|p]; simpl; split; try discriminate;
      intros [= E]; exact (DecimalPos.Unsigned.to_uint_nonnil p E). }
  apply DecimalZ.to_int_inj.
  assert (Some (Z.to_int n) = Some (Z.to_int m)) as [= E]; [|exact E].
  rewrite <- (NilZero.isi (Z.to_int n)), <- (NilZero.isi (Z.to_int m));
    try apply Hnn.
  rewrite H. reflexivity.
Qed.

End ListChanges.

(** Adding keys to a whitelist that is in force only admits more: under a
    non-empty whitelist, an event that is accepted stays accepted when the
    whitelist is replaced by any list holding all of its keys. *)
Theorem whitelist_extension_keeps_acceptance (cfg : RelayConfig)
  (members : list string) (event : Event) :
  WhitelistPubkeys cfg <> [] ->
  (forall key, In key (WhitelistPubkeys cfg) -> In key members) ->
  RejectEvent cfg event = (false, "") ->
  RejectEvent (with_WhitelistPubkeys cfg members) event = (false, "").
Proof.
  intros Hne Hsub Hacc.
  assert (Hnone : forall r, ~ Violates r cfg event).
  { apply accept_flag_no_violation. rewrite Hacc. reflexivity. }
  destruct (RejectEvent_cases (with_WhitelistPubkeys cfg members) event)
    as [[E _] | (r & Hv & _ & _)]; [exact E|].
  exfalso. destruct r.
  - apply (Hnone ContentLengthRule). exact Hv.
  - apply (Hnone TagCountRule). exact Hv.
  - apply (Hnone AllowedKindsRule). exact Hv.
  - simpl in Hv. destruct Hv as [_ Hnot]. apply Hnot, Hsub.
    apply not_violates_whitelist; [apply Hnone | exact Hne].
Qed.

Lemma whitelist_extension_keeps_acceptance_witness :
  RejectEvent
    (with_WhitelistPubkeys (with_WhitelistPubkeys default_config ["abc"])
       ["def"; "abc"])
    (sample_event "abc" 1 [] "hi")
  = (false, "").
Proof.
  apply (whitelist_extension_keeps_acceptance
           (with_WhitelistPubkeys default_config ["abc"]) ["def"; "abc"]
           (sample_event "abc" 1 [] "hi")).
  - discriminate.
  - simpl. intros key [H | []]. right. left. exact H.
  - reflexivity.
Defined.

(** Switching the whitelist on is not such an extension: when the whitelist
    is empty and an event is accepted, putting any keys other than the
    event's pubkey on the whitelist makes the same event rejected, with the
    whitelist reason. *)
Theorem first_whitelist_entry_rejects_others (cfg : RelayConfig)
  (members : list string) (event : Event) :
  WhitelistPubkeys cfg = [] ->
  members <> [] ->
  ~ In (EvPubKey event) members ->
  RejectEvent cfg event = (false, "") ->
  RejectEvent (with_WhitelistPubkeys cfg members) event
  = (true, "blocked: pubkey not in whitelist").
Proof.
  intros Hnil Hne Hnot Hacc.
  assert (Hnone : forall r, ~ Violates r cfg event).
  { apply accept_flag_no_violation. rewrite Hacc. reflexivity. }
  apply (earliest_violation_verdict (with_WhitelistPubkeys cfg members) event
           WhitelistRule).
  - simpl. split; assumption.
  - intros r' Hlt Hv.
    apply whitelist_only_in_last_rule in Hv; [exact (Hnone r' Hv)|].
    intros ->. simpl in Hlt. lia.
Qed.

Lemma first_whitelist_entry_rejects_others_witness :
  RejectEvent (with_WhitelistPubkeys default_config ["abc"])
    (sample_event "xyz" 1 [] "hi")
  = (true, "blocked: pubkey not in whitelist").
Proof.
  apply (first_whitelist_entry_rejects_others default_config ["abc"]
           (sample_event "xyz" 1 [] "hi")).
  - reflexivity.
  - discriminate.
  - simpl. intros [H | []]. discriminate.
  - reflexivity.
Defined.

(** The kind test looks at membership alone: two allow-lists with the same
    elements, in any order and with any repetitions, reject the same
    events.  (The reason text prints the list as configured.) *)
Theorem allowed_kinds_order_irrelevant (cfg : RelayConfig) (l1 l2 : list Z)
  (event : Event) :
  (forall k, In k l1 <-> In k l2) ->
  fst (RejectEvent (with_AllowedKinds cfg l1) event)
  = fst (RejectEvent (with_AllowedKinds cfg l2) event).
Proof.
  intros Hsame.
  assert (Hiff : forall r,
            Violates r (with_AllowedKinds cfg l1) event
            <-> Violates r (with_AllowedKinds cfg l2) event).
  { intros r. destruct r; simpl; try tauto.
    rewrite (Hsame (Kind event)).
    assert (l1 <> [] <-> l2 <> []) as ->; [|tauto].
    destruct l1 as [|a l1], l2 as [|b l2]; split; intro H;
      try discriminate; try (exfalso; apply H; reflexivity).
    - exfalso. exact (proj2 (Hsame b) (or_introl eq_refl)).
    - exfalso. exact (proj1 (Hsame a) (or_introl eq_refl)). }
  destruct (fst (RejectEvent (with_AllowedKinds cfg l2) event)) eqn:E2.
  - destruct (fst (RejectEvent (with_AllowedKinds cfg l1) event)) eqn:E1;
      [reflexivity|].
    rewrite accept_flag_no_violation in E1.
    assert (fst (RejectEvent (with_AllowedKinds cfg l2) event) = false) as E;
      [|congruence].
    apply accept_flag_no_violation. intros r Hv. apply (E1 r), Hiff, Hv.
  - rewrite accept_flag_no_violation in E2.
    apply accept_flag_no_violation. intros r Hv. apply (E2 r), Hiff, Hv.
Qed.

Lemma allowed_kinds_order_irrelevant_witness :
  fst (RejectEvent (with_AllowedKinds default_config [1; 30023])
         (sample_event "abc" 7 [] "hi"))
  = fst (RejectEvent (with_AllowedKinds default_config [30023; 1; 1])
           (sample_event "abc" 7 [] "hi")).
Proof.
  apply (allowed_kinds_order_irrelevant default_config [1; 30023]
           [30023; 1; 1] (sample_event "abc" 7 [] "hi")).
  intros k. simpl. tauto.
Defined.

(** The size reasons name the limit in force: two configurations give the
    same content-length reason only if they have the same
    [MaxContentLength], and the same tag-count reason only if they have the
    same [MaxEventTags]. *)
Theorem size_reason_determines_limit (cfg cfg' : RelayConfig) :
  (content_reason cfg = content_reason cfg' ->
   MaxContentLength cfg = MaxContentLength cfg')
  /\ (tags_reason cfg = tags_reason cfg' ->
      MaxEventTags cfg = MaxEventTags cfg').
Proof.
  unfold content_reason, tags_reason. split; intros H; simpl in H;
    apply fmt_d_inj; congruence.
Qed.

Lemma size_reason_determines_limit_witness :
  MaxContentLength default_config
  = MaxContentLength (with_MaxEventTags default_config 7).
Proof.
  destruct (size_reason_determines_limit default_config
              (with_MaxEventTags default_config 7)) as [H _].
  apply H. reflexivity.
Defined.

(** * Further properties of the dispatcher and of the log *)

Section ResponseFacts.

Variable unicode_map_lower : string -> string.

Lemma handoff_iff_lowered cfg r :
  route_of (handleRoot unicode_map_lower cfg r) = Some StreamingHandoff
  <-> ToLower unicode_map_lower (Header_Get (ReqHeader r) "Upgrade")
      = "websocket".
Proof.
  unfold handleRoot.
  destruct (String.eqb (ToLower _ _) _) eqn:E.
  - apply String.eqb_eq in E. simpl. tauto.
  - apply String.eqb_neq in E.
    destruct (String.eqb (Header_Get _ "Accept") _); simpl;
      split; [discriminate | contradiction | discriminate | contradiction].
Qed.

Lemma status_page_ignores_members cfg r members :
  (members <> [] <-> WhitelistPubkeys cfg <> []) ->
  status_page (with_WhitelistPubkeys cfg members) r = status_page cfg r.
Proof.
  intros H. unfold status_page. simpl.
  assert ((len_slice members >? 0) = (len_slice (WhitelistPubkeys cfg) >? 0))
    as ->; [|reflexivity].
  destruct (len_slice (WhitelistPubkeys cfg) >? 0) eqn:E.
  - apply len_slice_pos. apply H. apply len_slice_pos. exact E.
  - apply len_slice_zero. apply len_slice_zero in E.
    destruct members as [|m ms]; [reflexivity|].
    exfalso. destruct H as [H _]. apply H; [discriminate | exact E].
Qed.

Lemma append_assoc (a b c : string) : (a ++ b) ++ c = a ++ (b ++ c).
Proof. induction a as [|x a IH]; simpl; [reflexivity | rewrite IH; reflexivity]. Qed.

Lemma prefix_app (needle rest : string) : prefix needle (needle ++ rest) = true.
Proof.
  induction needle as [|c needle IH]; simpl; [apply prefix_empty|].
  destruct (ascii_dec c c); [exact IH | contradiction].
Qed.

Lemma occurs_in_here (needle rest : string) :
  occurs_in needle (needle ++ rest) = true.
Proof.
  pose proof (prefix_app needle rest) as H.
  destruct (needle ++ rest); simpl; simpl in H; rewrite H; reflexivity.
Qed.

Lemma occurs_in_skip (needle before hay : string) :
  occurs_in needle hay = true -> occurs_in needle (before ++ hay) = true.
Proof.
  intros H. induction before as [|c before IH]; simpl; [exact H|].
  rewrite IH. apply orb_true_r.
Qed.

Lemma prefix_keep (needle hay after : string) :
  prefix needle hay = true -> prefix needle (hay ++ after) = true.
Proof.
  revert hay. induction needle as [|c needle IH]; intros hay H;
    [apply prefix_empty|].
  destruct hay as [|d hay]; simpl in *; [discriminate|].
  destruct (ascii_dec c d); [apply IH, H | discriminate].
Qed.

Lemma occurs_in_keep (needle hay after : string) :
  occurs_in needle hay = true -> occurs_in needle (hay ++ after) = true.
Proof.
  induction hay as [|c hay IH]; intros H.
  - destruct needle; simpl in H; [|discriminate].
    destruct after; simpl; rewrite ?prefix_empty; reflexivity.
  - change (prefix needle (String c hay) || occurs_in needle hay = true) in H.
    change (prefix needle (String c hay ++ after)
            || occurs_in needle (hay ++ after) = true).
    apply orb_true_iff in H. apply orb_true_iff. destruct H as [H | H].
    + left. apply prefix_keep, H.
    + right. apply IH, H.
Qed.

(** [needle] occurs in every string of the form
    [before ++ needle ++ after]. *)
Lemma occurs_in_middle (needle before after : string) :
  occurs_in needle (before ++ needle ++ after) = true.
Proof. apply occurs_in_skip, occurs_in_here. Qed.

End ResponseFacts.

(** On an Upgrade value made of ASCII bytes the hand-off test is exact: the
    request goes to the relay engine if and only if the value is
    [websocket] up to letter case.  Surrounding spaces, a protocol list or
    a version suffix make it an ordinary request. *)
Theorem handoff_iff_websocket_any_case (unicode_map_lower : string -> string)
  (cfg : RelayConfig) (r : Request) :
  string_forallb is_ascii_byte (Header_Get (ReqHeader r) "Upgrade") = true ->
  (route_of (handleRoot unicode_map_lower cfg r) = Some StreamingHandoff
   <-> ascii_fold_eq (Header_Get (ReqHeader r) "Upgrade") "websocket" = true).
Proof.
  intros Hascii. rewrite handoff_iff_lowered.
  rewrite (ToLower_ascii unicode_map_lower _ Hascii).
  unfold ascii_fold_eq. rewrite String.eqb_eq.
  change (string_map lower_byte "websocket") with "websocket". tauto.
Qed.

Lemma handoff_iff_websocket_any_case_witness :
  route_of (handleRoot (fun s => s) default_config
              (request_with "WEBSOCKET" "text/html"))
  = Some StreamingHandoff
  <-> ascii_fold_eq "WEBSOCKET" "websocket" = true.
Proof.
  apply (handoff_iff_websocket_any_case (fun s => s) default_config
           (request_with "WEBSOCKET" "text/html")).
  reflexivity.
Defined.

(** No response tells who is on the whitelist: on every request, whichever
    branch it takes, the handler's effects are the same for two
    configurations that differ only in the members of a whitelist that is
    empty in both or non-empty in both. *)
Theorem response_ignores_whitelist_members
  (unicode_map_lower : string -> string) (cfg : RelayConfig)
  (members : list string) (r : Request) :
  (members <> [] <-> WhitelistPubkeys cfg <> []) ->
  handleRoot unicode_map_lower (with_WhitelistPubkeys cfg members) r
  = handleRoot unicode_map_lower cfg r.
Proof.
  intros H. unfold handleRoot.
  rewrite (document_ignores_members cfg members H).
  rewrite (status_page_ignores_members cfg r members H).
  reflexivity.
Qed.

Lemma response_ignores_whitelist_members_witness :
  handleRoot (fun s => s)
    (with_WhitelistPubkeys (with_WhitelistPubkeys default_config ["abc"])
       ["def"; "0123"])
    (plain_request "text/html")
  = handleRoot (fun s => s) (with_WhitelistPubkeys default_config ["abc"])
      (plain_request "text/html").
Proof.
  apply (response_ignores_whitelist_members (fun s => s)
           (with_WhitelistPubkeys default_config ["abc"]) ["def"; "0123"]
           (plain_request "text/html")).
  simpl. split; intros _; discriminate.
Defined.

(** The status page shows the relay's name as its title, unescaped, and the
    connection address built from the request's Host and the configured
    port: [ws://<host>:<port>/]. *)
Theorem status_page_shows_name_and_address (cfg : RelayConfig) (r : Request) :
  occurs_in ("<title>" ++ Name cfg ++ "</title>") (status_page cfg r) = true
  /\ occurs_in ("<code>ws://" ++ Host r ++ ":" ++ fmt_d (Port cfg) ++ "/</code>")
       (status_page cfg r) = true.
Proof.
  unfold status_page. split.
  - do 3 apply occurs_in_skip. apply occurs_in_keep.
    unfold line. apply occurs_in_skip, occurs_in_here.
  - do 25 apply occurs_in_skip. apply occurs_in_keep.
    unfold line. apply occurs_in_skip, occurs_in_keep.
    replace ("<p>Connect to this relay using: <code>ws://" ++ Host r ++ ":"
             ++ fmt_d (Port cfg) ++ "/</code></p>")
      with ("<p>Connect to this relay using: "
            ++ ("<code>ws://" ++ Host r ++ ":" ++ fmt_d (Port cfg) ++ "/</code>")
            ++ "</p>").
    + apply occurs_in_middle.
    + rewrite !append_assoc. reflexivity.
Qed.

Section LogFacts.


End LogFacts.


(** With [cfg.Debug] off a saved event leaves no trace in the log: the log
    of a run is the same with and without any call of the event-saved
    hook. *)
Theorem saved_events_silent_without_debug (config_err : option string)
  (cfg : RelayConfig) (db_init_err : option string)
  (before after : list HookCall) (event : Event) (serve_err : option string) :
  Debug cfg = false ->
  main_log config_err cfg db_init_err
    (before ++ EventSavedCall event :: after) serve_err
  = main_log config_err cfg db_init_err (before ++ after) serve_err.
Proof.
  intros Hoff. unfold main_log. destruct config_err; [reflexivity|].
  rewrite !flat_map_app. simpl. unfold OnEventSaved. rewrite Hoff.
  reflexivity.
Qed.

Lemma saved_events_silent_without_debug_witness :
  main_log None default_config None
    ([ConnectCall "10.0.0.1:5000"]
     ++ EventSavedCall (sample_event "abc" 1 [] "hi")
        :: [DisconnectCall "10.0.0.1:5000"]) None
  = main_log None default_config None
      ([ConnectCall "10.0.0.1:5000"] ++ [DisconnectCall "10.0.0.1:5000"]) None.
Proof.
  apply (saved_events_silent_without_debug None default_config None
           [ConnectCall "10.0.0.1:5000"] [DisconnectCall "10.0.0.1:5000"]
           (sample_event "abc" 1 [] "hi") None).
  reflexivity.
Defined.

